(** * Driver online-gating flow of the LoadMatrix client

    A shallow embedding of the driver dashboard's location gate
    ([DriverDashboard]), the mandatory [LocationPermissionModal] and the
    [logout] of the authentication context, as an event-driven transition
    system over the browser state they share: [localStorage], the global
    [window.driverLocationInterval], the set of running intervals, the
    geolocation and network requests in flight, and the React state of the
    two components.

    JavaScript is single threaded: every callback runs to completion, so one
    transition of the system is one callback (or one user action) followed
    by the React effects its state changes trigger. *)

From Stdlib Require Import ZArith NArith Ascii String DecimalString DecimalN DecimalPos.
From Stdlib Require Import PrimFloat.
From stdpp Require Import gmap strings list fin_maps.

Local Open Scope string_scope.
Local Open Scope Z_scope.

(** Left-to-right sequencing of state transformers: [w |> f |> g] reads as the
    statements [f; g] executed from [w]. *)
Notation "w |> f" := (f w) (at level 45, left associativity, only parsing).

(** ** JavaScript values used by the flow *)

Module Js.

(** [n.toString()] for a non-negative integer (the shape of [Date.now()]
    and of a numeric database id). *)
Definition toString (n : N) : string :=
  NilZero.string_of_uint (N.to_uint n).

(** The ASCII part of StrWhiteSpaceChar, skipped by [parseInt]. *)
Definition isWhiteSpace (a : ascii) : bool :=
  let n := nat_of_ascii a in
  ((n =? 32) || (n =? 9) || (n =? 10) || (n =? 11) || (n =? 12) || (n =? 13))%nat.

Fixpoint skipWhiteSpace (s : string) : string :=
  match s with
  | String a r => if isWhiteSpace a then skipWhiteSpace r else s
  | EmptyString => s
  end.

(** Value of a character as a digit, for radix 10 or 16. *)
Definition digitValue (radix : Z) (a : ascii) : option Z :=
  let n := Z.of_nat (nat_of_ascii a) in
  if (48 <=? n) && (n <=? 57) then Some (n - 48)
  else if (radix =? 16) && (97 <=? n) && (n <=? 102) then Some (n - 87)
  else if (radix =? 16) && (65 <=? n) && (n <=? 70) then Some (n - 55)
  else None.

(** The longest prefix of digits, read in the radix; [None] is [NaN]
    (no digit at all). *)
Fixpoint parseDigits (radix : Z) (s : string) (acc : option Z) : option Z :=
  match s with
  | String a r =>
      match digitValue radix a with
      | Some d => parseDigits radix r (Some (radix * default 0 acc + d))
      | None => acc
      end
  | EmptyString => acc
  end.

Definition stripSign (s : string) : Z * string :=
  match s with
  | String "-" r => (-1, r)
  | String "+" r => (1, r)
  | _ => (1, s)
  end.

Definition stripHexPrefix (s : string) : Z * string :=
  match s with
  | String "0" (String "x" r) => (16, r)
  | String "0" (String "X" r) => (16, r)
  | _ => (10, s)
  end.

(** [parseInt(s)] with no radix argument. [None] is [NaN]. Integers are
    exact here; the rounding of a double above 2^53 is not modelled (epoch
    milliseconds are far below). *)
Definition parseInt (s : string) : option Z :=
  let '(sign, s1) := stripSign (skipWhiteSpace s) in
  let '(radix, s2) := stripHexPrefix s1 in
  Z.mul sign <$> parseDigits radix s2 None.

(** [a < b] on numbers: false as soon as one side is [NaN]. *)
Definition lt (a b : option Z) : bool :=
  match a, b with
  | Some x, Some y => x <? y
  | _, _ => false
  end.

Definition gt (a b : option Z) : bool := lt b a.

(** [a - b] on numbers. *)
Definition sub (a b : option Z) : option Z :=
  match a, b with
  | Some x, Some y => Some (x - y)
  | _, _ => None
  end.

(** The value of [user?.id]: absent, a number or a string. *)
Inductive Id :=
| IdUndefined
| IdNumber (n : N)
| IdString (s : string).

(** Interpolation [`${id}`] in a template literal. *)
Definition template (v : Id) : string :=
  match v with
  | IdUndefined => "undefined"
  | IdNumber n => toString n
  | IdString s => s
  end.

(** Truthiness, as tested by [if (user?.id)]. *)
Definition truthy (v : Id) : bool :=
  match v with
  | IdUndefined => false
  | IdNumber n => negb (n =? 0)%N
  | IdString s => negb (String.eqb s "")
  end.

(** Truthiness of the result of [localStorage.getItem]: [null] and the empty
    string are falsy. *)
Definition truthyItem (v : option string) : bool :=
  match v with
  | Some s => negb (String.eqb s "")
  | None => false
  end.

End Js.

(** ** Data of the flow *)

(** [GeolocationPositionError.code]. *)
Inductive PositionError := PERMISSION_DENIED | POSITION_UNAVAILABLE | TIMEOUT.

(** [position.coords]: two IEEE doubles. *)
Record Coords := { latitude : float; longitude : float }.

(** The object [{ lat, lng }] the components keep and post. *)
Record Location := { lat : float; lng : float }.

(** Third argument of [getCurrentPosition]. *)
Record PositionOptions :=
  { enableHighAccuracy : bool; timeout : Z; maximumAge : Z }.

(** [user] of the authentication context; only its [id] matters here. *)
Record User := { id : Js.Id }.

(** [user?.id] *)
Definition userId (u : option User) : Js.Id :=
  match u with
  | Some v => id v
  | None => Js.IdUndefined
  end.

Definition userLocationKey (uid : Js.Id) : string :=
  String.append "driverLocationPermission_" (Js.template uid).

Definition userLocationTimeKey (uid : Js.Id) : string :=
  String.append "driverLocationPermissionTime_" (Js.template uid).

Definition sevenDays : Z := 7 * 24 * 60 * 60 * 1000.
Definition oneHour : Z := 60 * 60 * 1000.

(** React state of [DriverDashboard] (the hooks the flow reads or writes). *)
Module Dash.

Record state := {
  loading : bool;
  locationLoading : bool;
  currentLocation : option Location;
  showLocationModal : bool;
  locationPermissionGranted : bool;
  dashboardBlocked : bool;
  permissionCheckComplete : bool
}.

(** The [useState] initial values. *)
Definition initial : state := {|
  loading := true;
  locationLoading := false;
  currentLocation := None;
  showLocationModal := false;
  locationPermissionGranted := false;
  dashboardBlocked := true;
  permissionCheckComplete := false
|}.

Definition setLoading (v : bool) (d : state) : state :=
  {| loading := v; locationLoading := locationLoading d;
     currentLocation := currentLocation d; showLocationModal := showLocationModal d;
     locationPermissionGranted := locationPermissionGranted d;
     dashboardBlocked := dashboardBlocked d;
     permissionCheckComplete := permissionCheckComplete d |}.

Definition setLocationLoading (v : bool) (d : state) : state :=
  {| loading := loading d; locationLoading := v;
     currentLocation := currentLocation d; showLocationModal := showLocationModal d;
     locationPermissionGranted := locationPermissionGranted d;
     dashboardBlocked := dashboardBlocked d;
     permissionCheckComplete := permissionCheckComplete d |}.

Definition setCurrentLocation (v : option Location) (d : state) : state :=
  {| loading := loading d; locationLoading := locationLoading d;
     currentLocation := v; showLocationModal := showLocationModal d;
     locationPermissionGranted := locationPermissionGranted d;
     dashboardBlocked := dashboardBlocked d;
     permissionCheckComplete := permissionCheckComplete d |}.

Definition setShowLocationModal (v : bool) (d : state) : state :=
  {| loading := loading d; locationLoading := locationLoading d;
     currentLocation := currentLocation d; showLocationModal := v;
     locationPermissionGranted := locationPermissionGranted d;
     dashboardBlocked := dashboardBlocked d;
     permissionCheckComplete := permissionCheckComplete d |}.

Definition setLocationPermissionGranted (v : bool) (d : state) : state :=
  {| loading := loading d; locationLoading := locationLoading d;
     currentLocation := currentLocation d; showLocationModal := showLocationModal d;
     locationPermissionGranted := v;
     dashboardBlocked := dashboardBlocked d;
     permissionCheckComplete := permissionCheckComplete d |}.

Definition setDashboardBlocked (v : bool) (d : state) : state :=
  {| loading := loading d; locationLoading := locationLoading d;
     currentLocation := currentLocation d; showLocationModal := showLocationModal d;
     locationPermissionGranted := locationPermissionGranted d;
     dashboardBlocked := v;
     permissionCheckComplete := permissionCheckComplete d |}.

Definition setPermissionCheckComplete (v : bool) (d : state) : state :=
  {| loading := loading d; locationLoading := locationLoading d;
     currentLocation := currentLocation d; showLocationModal := showLocationModal d;
     locationPermissionGranted := locationPermissionGranted d;
     dashboardBlocked := dashboardBlocked d;
     permissionCheckComplete := v |}.

(** What the component returns: the three [return] statements at the end of
    [DriverDashboard]. The flag is the [isOpen] prop of the modal. *)
Inductive View :=
| Spinner
| BlockedPage (isOpen : bool)
| Content (isOpen : bool).

Definition render (d : state) : View :=
  if loading d || negb (permissionCheckComplete d) then Spinner
  else if dashboardBlocked d then BlockedPage (showLocationModal d)
  else Content (showLocationModal d).

(** The spec's [GateState], read off the two flags that drive it. *)
Inductive GateState := checking | blockedNeedsConsent | open.

Definition gate (d : state) : GateState :=
  if negb (permissionCheckComplete d) then checking
  else if dashboardBlocked d then blockedNeedsConsent
  else open.

End Dash.

(** React state of [LocationPermissionModal]. *)
Module Modal.

Inductive PermissionState := requesting | granted | denied | error.
Inductive LocationStatus := idle | getting | success | failed.

Record state := {
  permissionState : PermissionState;
  locationStatus : LocationStatus;
  errorMessage : string;
  currentLocation : option Location;
  retryCount : nat
}.

Definition initial : state := {|
  permissionState := requesting;
  locationStatus := idle;
  errorMessage := "";
  currentLocation := None;
  retryCount := 0
|}.

Definition setPermissionState (v : PermissionState) (m : state) : state :=
  {| permissionState := v; locationStatus := locationStatus m;
     errorMessage := errorMessage m; currentLocation := currentLocation m;
     retryCount := retryCount m |}.

Definition setLocationStatus (v : LocationStatus) (m : state) : state :=
  {| permissionState := permissionState m; locationStatus := v;
     errorMessage := errorMessage m; currentLocation := currentLocation m;
     retryCount := retryCount m |}.

Definition setErrorMessage (v : string) (m : state) : state :=
  {| permissionState := permissionState m; locationStatus := locationStatus m;
     errorMessage := v; currentLocation := currentLocation m;
     retryCount := retryCount m |}.

Definition setCurrentLocation (v : option Location) (m : state) : state :=
  {| permissionState := permissionState m; locationStatus := locationStatus m;
     errorMessage := errorMessage m; currentLocation := v;
     retryCount := retryCount m |}.

Definition setRetryCount (f : nat -> nat) (m : state) : state :=
  {| permissionState := permissionState m; locationStatus := locationStatus m;
     errorMessage := errorMessage m; currentLocation := currentLocation m;
     retryCount := f (retryCount m) |}.

Definition isGranted (p : PermissionState) : bool :=
  match p with granted => true | _ => false end.

Definition isFailure (p : PermissionState) : bool :=
  match p with denied | error => true | _ => false end.

End Modal.

(** ** Closures and requests in flight *)

(** What a callback created during a render keeps: the component instance
    whose state setters it holds and the [user?.id] it saw. *)
Record Closure := { owner : nat; uid : Js.Id }.

(** The success and error callbacks handed to [getCurrentPosition]. *)
Inductive GeoCallback :=
| SilentProbe (timeDiff : option Z)
| FullProbe
| TrackingProbe (interval : positive)
| ModalProbe (permissionState : Modal.PermissionState).

Inductive OrderActionKind := accept | accept_request | reject_request.

(** The code after an [await api....]. *)
Inductive Continuation :=
| AfterSendLocationUpdate
| AfterModalSendLocationUpdate (permissionState : Modal.PermissionState) (location : Location)
| AfterUpdateLocation
| AfterFetchDashboardData
| AfterOrderAction (kind : OrderActionKind).

Inductive Pending :=
| Geo (env : Closure) (cb : GeoCallback) (options : PositionOptions)
| Net (env : Closure) (k : Continuation)
| RetryTimeout (env : Closure) (permissionState : Modal.PermissionState).

(** Requests sent to the backend. *)
Inductive Request :=
| PostDriverLocation (body : Location)
| GetDashboardData
| PostOrderAction (kind : OrderActionKind) (orderId : N).

Inductive ToastKind := toastSuccess | toastError.

(** ** The browser and the application state *)

Record World := {
  localStorage : gmap string string;
  driverLocationInterval : option positive;
  intervals : gmap positive Closure;
  nextHandle : positive;
  pending : list Pending;
  network : list Request;
  toasts : list (ToastKind * string);
  console : list string;
  now : N;
  geolocation : bool;
  user : option User;
  token : option string;
  authorization : option string;
  instance : nat;
  dashboard : option Dash.state;
  modal : option Modal.state
}.

(** A freshly loaded page: nothing mounted, nothing in flight. Interval
    handles are positive integers, as in browsers. *)
Definition pageLoad (storage : gmap string string) (supported : bool) (t : N) : World := {|
  localStorage := storage;
  driverLocationInterval := None;
  intervals := ∅;
  nextHandle := 1%positive;
  pending := [];
  network := [];
  toasts := [];
  console := [];
  now := t;
  geolocation := supported;
  user := None;
  token := None;
  authorization := None;
  instance := 0%nat;
  dashboard := None;
  modal := None
|}.

(** Field updates of [World]: [over_f g w] applies [g] to field [f]. *)

Definition over_localStorage (g : gmap string string -> gmap string string) (w : World) : World :=
  {| localStorage := g (localStorage w);
     driverLocationInterval := driverLocationInterval w; intervals := intervals w;
     nextHandle := nextHandle w; pending := pending w; network := network w;
     toasts := toasts w; console := console w; now := now w;
     geolocation := geolocation w; user := user w; token := token w;
     authorization := authorization w; instance := instance w;
     dashboard := dashboard w; modal := modal w |}.

Definition over_driverLocationInterval (g : option positive -> option positive) (w : World) : World :=
  {| localStorage := localStorage w;
     driverLocationInterval := g (driverLocationInterval w);
     intervals := intervals w; nextHandle := nextHandle w; pending := pending w;
     network := network w; toasts := toasts w; console := console w; now := now w;
     geolocation := geolocation w; user := user w; token := token w;
     authorization := authorization w; instance := instance w;
     dashboard := dashboard w; modal := modal w |}.

Definition over_intervals (g : gmap positive Closure -> gmap positive Closure) (w : World) : World :=
  {| localStorage := localStorage w;
     driverLocationInterval := driverLocationInterval w;
     intervals := g (intervals w); nextHandle := nextHandle w;
     pending := pending w; network := network w; toasts := toasts w;
     console := console w; now := now w; geolocation := geolocation w;
     user := user w; token := token w; authorization := authorization w;
     instance := instance w; dashboard := dashboard w; modal := modal w |}.

Definition over_nextHandle (g : positive -> positive) (w : World) : World :=
  {| localStorage := localStorage w;
     driverLocationInterval := driverLocationInterval w; intervals := intervals w;
     nextHandle := g (nextHandle w); pending := pending w; network := network w;
     toasts := toasts w; console := console w; now := now w;
     geolocation := geolocation w; user := user w; token := token w;
     authorization := authorization w; instance := instance w;
     dashboard := dashboard w; modal := modal w |}.

Definition over_pending (g : list Pending -> list Pending) (w : World) : World :=
  {| localStorage := localStorage w;
     driverLocationInterval := driverLocationInterval w; intervals := intervals w;
     nextHandle := nextHandle w; pending := g (pending w); network := network w;
     toasts := toasts w; console := console w; now := now w;
     geolocation := geolocation w; user := user w; token := token w;
     authorization := authorization w; instance := instance w;
     dashboard := dashboard w; modal := modal w |}.

Definition over_network (g : list Request -> list Request) (w : World) : World :=
  {| localStorage := localStorage w;
     driverLocationInterval := driverLocationInterval w; intervals := intervals w;
     nextHandle := nextHandle w; pending := pending w; network := g (network w);
     toasts := toasts w; console := console w; now := now w;
     geolocation := geolocation w; user := user w; token := token w;
     authorization := authorization w; instance := instance w;
     dashboard := dashboard w; modal := modal w |}.

Definition over_toasts (g : list (ToastKind * string) -> list (ToastKind * string)) (w : World) : World :=
  {| localStorage := localStorage w;
     driverLocationInterval := driverLocationInterval w; intervals := intervals w;
     nextHandle := nextHandle w; pending := pending w; network := network w;
     toasts := g (toasts w); console := console w; now := now w;
     geolocation := geolocation w; user := user w; token := token w;
     authorization := authorization w; instance := instance w;
     dashboard := dashboard w; modal := modal w |}.

Definition over_console (g : list string -> list string) (w : World) : World :=
  {| localStorage := localStorage w;
     driverLocationInterval := driverLocationInterval w; intervals := intervals w;
     nextHandle := nextHandle w; pending := pending w; network := network w;
     toasts := toasts w; console := g (console w); now := now w;
     geolocation := geolocation w; user := user w; token := token w;
     authorization := authorization w; instance := instance w;
     dashboard := dashboard w; modal := modal w |}.

Definition over_now (g : N -> N) (w : World) : World :=
  {| localStorage := localStorage w;
     driverLocationInterval := driverLocationInterval w; intervals := intervals w;
     nextHandle := nextHandle w; pending := pending w; network := network w;
     toasts := toasts w; console := console w; now := g (now w);
     geolocation := geolocation w; user := user w; token := token w;
     authorization := authorization w; instance := instance w;
     dashboard := dashboard w; modal := modal w |}.

Definition over_user (g : option User -> option User) (w : World) : World :=
  {| localStorage := localStorage w;
     driverLocationInterval := driverLocationInterval w; intervals := intervals w;
     nextHandle := nextHandle w; pending := pending w; network := network w;
     toasts := toasts w; console := console w; now := now w;
     geolocation := geolocation w; user := g (user w); token := token w;
     authorization := authorization w; instance := instance w;
     dashboard := dashboard w; modal := modal w |}.

Definition over_token (g : option string -> option string) (w : World) : World :=
  {| localStorage := localStorage w;
     driverLocationInterval := driverLocationInterval w; intervals := intervals w;
     nextHandle := nextHandle w; pending := pending w; network := network w;
     toasts := toasts w; console := console w; now := now w;
     geolocation := geolocation w; user := user w; token := g (token w);
     authorization := authorization w; instance := instance w;
     dashboard := dashboard w; modal := modal w |}.

Definition over_authorization (g : option string -> option string) (w : World) : World :=
  {| localStorage := localStorage w;
     driverLocationInterval := driverLocationInterval w; intervals := intervals w;
     nextHandle := nextHandle w; pending := pending w; network := network w;
     toasts := toasts w; console := console w; now := now w;
     geolocation := geolocation w; user := user w; token := token w;
     authorization := g (authorization w); instance := instance w;
     dashboard := dashboard w; modal := modal w |}.

Definition over_instance (g : nat -> nat) (w : World) : World :=
  {| localStorage := localStorage w;
     driverLocationInterval := driverLocationInterval w; intervals := intervals w;
     nextHandle := nextHandle w; pending := pending w; network := network w;
     toasts := toasts w; console := console w; now := now w;
     geolocation := geolocation w; user := user w; token := token w;
     authorization := authorization w; instance := g (instance w);
     dashboard := dashboard w; modal := modal w |}.

Definition over_dashboard (g : option Dash.state -> option Dash.state) (w : World) : World :=
  {| localStorage := localStorage w;
     driverLocationInterval := driverLocationInterval w; intervals := intervals w;
     nextHandle := nextHandle w; pending := pending w; network := network w;
     toasts := toasts w; console := console w; now := now w;
     geolocation := geolocation w; user := user w; token := token w;
     authorization := authorization w; instance := instance w;
     dashboard := g (dashboard w); modal := modal w |}.

Definition over_modal (g : option Modal.state -> option Modal.state) (w : World) : World :=
  {| localStorage := localStorage w;
     driverLocationInterval := driverLocationInterval w; intervals := intervals w;
     nextHandle := nextHandle w; pending := pending w; network := network w;
     toasts := toasts w; console := console w; now := now w;
     geolocation := geolocation w; user := user w; token := token w;
     authorization := authorization w; instance := instance w;
     dashboard := dashboard w; modal := g (modal w) |}.

(** ** Browser primitives *)

Definition setItem (key value : string) : World -> World :=
  over_localStorage (fun m => <[key := value]> m).

Definition removeItem (key : string) : World -> World :=
  over_localStorage (fun m => delete key m).

Definition toast (kind : ToastKind) (message : string) : World -> World :=
  over_toasts (fun l => (l ++ [(kind, message)])%list).

Definition consoleLog (message : string) : World -> World :=
  over_console (fun l => (l ++ [message])%list).

(** [navigator.geolocation.getCurrentPosition(success, error, options)]: the
    request is in flight until the device answers. *)
Definition getCurrentPosition (env : Closure) (cb : GeoCallback)
    (options : PositionOptions) : World -> World :=
  over_pending (fun l => (l ++ [Geo env cb options])%list).

(** [await api.post(...)] or [api.get(...)]: the request leaves now, the code
    after the [await] runs when the answer arrives. *)
Definition request (env : Closure) (k : Continuation) (r : Request) (w : World) : World :=
  w |> over_network (fun l => (l ++ [r])%list)
    |> over_pending (fun l => (l ++ [Net env k])%list).

(** [setInterval(callback, 7000)]: returns the handle [nextHandle w]. *)
Definition setInterval (env : Closure) (w : World) : World :=
  w |> over_intervals (fun m => <[nextHandle w := env]> m)
    |> over_nextHandle Pos.succ.

Definition clearInterval (handle : positive) : World -> World :=
  over_intervals (fun m => delete handle m).

(** [setTimeout(callback, 500)] of the modal's retry. *)
Definition setTimeout (env : Closure) (p : Modal.PermissionState) : World -> World :=
  over_pending (fun l => (l ++ [RetryTimeout env p])%list).

(** A state setter of the dashboard instance [owner env]. React drops the
    update when that instance is no longer the mounted one. *)
Definition setState (env : Closure) (f : Dash.state -> Dash.state) (w : World) : World :=
  w |> over_dashboard (fun d => if (instance w =? owner env)%nat then f <$> d else d).

(** A state setter of the modal rendered by the dashboard instance
    [owner env]. *)
Definition setModalState (env : Closure) (f : Modal.state -> Modal.state) (w : World) : World :=
  w |> over_modal (fun m => if (instance w =? owner env)%nat then f <$> m else m).

(** The closure environment of the current render. *)
Definition currentEnv (w : World) : Closure :=
  {| owner := instance w; uid := userId (user w) |}.

Definition locationOf (c : Coords) : Location :=
  {| lat := latitude c; lng := longitude c |}.

(** ** [DriverDashboard] *)

Module DriverDashboard.

(** [sendLocationUpdate]: the network failure is caught after the [await];
    a [null] location fails inside the [try] before anything is sent. *)
Definition sendLocationUpdate (env : Closure) (location : option Location)
    (w : World) : World :=
  match location with
  | Some l =>
      w |> request env AfterSendLocationUpdate
             (PostDriverLocation {| lat := lat l; lng := lng l |})
  | None => w |> consoleLog "Failed to update location:"
  end.

Definition afterSendLocationUpdate (ok : bool) (w : World) : World :=
  if ok then w else w |> consoleLog "Failed to update location:".

Definition trackingOptions : PositionOptions :=
  {| enableHighAccuracy := true; timeout := 8000; maximumAge := 30000 |}.

(** The body of the [setInterval] callback. *)
Definition intervalCallback (env : Closure) (interval : positive) : World -> World :=
  getCurrentPosition env (TrackingProbe interval) trackingOptions.

Definition startLiveLocationTracking (env : Closure)
    (initialLocation : option Location) (w : World) : World :=
  let w1 := w |> sendLocationUpdate env initialLocation in
  let interval := nextHandle w1 in
  w1 |> setInterval env
     |> over_driverLocationInterval (fun _ => Some interval).

(** Success callback of the periodic probe. *)
Definition trackingSuccess (env : Closure) (position : Coords) (w : World) : World :=
  let location := locationOf position in
  w |> setState env (Dash.setCurrentLocation (Some location))
    |> sendLocationUpdate env (Some location).

(** Error callback of the periodic probe. *)
Definition trackingError (env : Closure) (interval : positive)
    (error : PositionError) (w : World) : World :=
  let w1 := w |> consoleLog "Live location tracking error:" in
  match error with
  | PERMISSION_DENIED =>
      w1 |> removeItem (userLocationKey (uid env))
         |> removeItem (userLocationTimeKey (uid env))
         |> clearInterval interval
         |> setState env (Dash.setShowLocationModal true)
         |> setState env (Dash.setLocationPermissionGranted false)
         |> setState env (Dash.setDashboardBlocked true)
         |> toast toastError
              "Location access was disabled. Please re-enable to stay online."
  | _ => w1
  end.

Definition silentOptions : PositionOptions :=
  {| enableHighAccuracy := true; timeout := 5000; maximumAge := 300000 |}.

Definition fullOptions : PositionOptions :=
  {| enableHighAccuracy := false; timeout := 8000; maximumAge := 300000 |}.

Definition checkLocationPermissionStatus (env : Closure) (w : World) : World :=
  if negb (geolocation w) then
    w |> toast toastError "Your browser does not support location services"
      |> setState env (Dash.setShowLocationModal true)
      |> setState env (Dash.setPermissionCheckComplete true)
  else
    let storedPermission := localStorage w !! userLocationKey (uid env) in
    let lastPermissionCheck := localStorage w !! userLocationTimeKey (uid env) in
    let full := getCurrentPosition env FullProbe fullOptions in
    if bool_decide (storedPermission = Some "granted")
       && Js.truthyItem lastPermissionCheck
    then
      let timeDiff :=
        Js.sub (Some (Z.of_N (now w))) (Js.parseInt (default "" lastPermissionCheck)) in
      if Js.lt timeDiff (Some sevenDays)
      then w |> getCurrentPosition env (SilentProbe timeDiff) silentOptions
      else w |> full
    else w |> full.

(** Success callback of the silent probe. *)
Definition silentSuccess (env : Closure) (timeDiff : option Z)
    (position : Coords) (w : World) : World :=
  let location := locationOf position in
  let w1 :=
    w |> setState env (Dash.setCurrentLocation (Some location))
      |> setState env (Dash.setLocationPermissionGranted true)
      |> setState env (Dash.setDashboardBlocked false)
      |> setState env (Dash.setPermissionCheckComplete true)
      |> startLiveLocationTracking env (Some location) in
  if Js.gt timeDiff (Some oneHour)
  then w1 |> toast toastSuccess "Welcome back! Location tracking resumed."
  else w1.

(** Error callback of the silent probe. *)
Definition silentError (env : Closure) (w : World) : World :=
  w |> consoleLog "Stored permission no longer valid:"
    |> removeItem (userLocationKey (uid env))
    |> removeItem (userLocationTimeKey (uid env))
    |> setState env (Dash.setShowLocationModal true)
    |> setState env (Dash.setLocationPermissionGranted false)
    |> setState env (Dash.setDashboardBlocked true)
    |> setState env (Dash.setPermissionCheckComplete true).

(** Success callback of the first-time probe. *)
Definition fullSuccess (env : Closure) (position : Coords) (w : World) : World :=
  let location := locationOf position in
  w |> setItem (userLocationKey (uid env)) "granted"
    |> setItem (userLocationTimeKey (uid env)) (Js.toString (now w))
    |> setState env (Dash.setCurrentLocation (Some location))
    |> setState env (Dash.setLocationPermissionGranted true)
    |> setState env (Dash.setDashboardBlocked false)
    |> setState env (Dash.setPermissionCheckComplete true)
    |> startLiveLocationTracking env (Some location)
    |> toast toastSuccess "Location access enabled! You are now online.".

(** Error callback of the first-time probe. *)
Definition fullError (env : Closure) (w : World) : World :=
  w |> consoleLog "Location permission check failed:"
    |> setItem (userLocationKey (uid env)) "denied"
    |> setState env (Dash.setShowLocationModal true)
    |> setState env (Dash.setLocationPermissionGranted false)
    |> setState env (Dash.setDashboardBlocked true)
    |> setState env (Dash.setPermissionCheckComplete true).

(** [onLocationEnabled] of the modal. *)
Definition handleLocationEnabled (env : Closure) (location : option Location)
    (w : World) : World :=
  w |> setItem (userLocationKey (uid env)) "granted"
    |> setItem (userLocationTimeKey (uid env)) (Js.toString (now w))
    |> setState env (Dash.setCurrentLocation location)
    |> setState env (Dash.setLocationPermissionGranted true)
    |> setState env (Dash.setDashboardBlocked false)
    |> setState env (Dash.setShowLocationModal false)
    |> setState env (Dash.setPermissionCheckComplete true)
    |> startLiveLocationTracking env location
    |> toast toastSuccess "Welcome! You are now online and ready to receive orders.".

(** [fetchDashboardData]: the requests leave together; the statistics and
    order lists they fill are not part of the flow. *)
Definition fetchDashboardData (env : Closure) : World -> World :=
  request env AfterFetchDashboardData GetDashboardData.

Definition afterFetchDashboardData (env : Closure) (ok : bool) (w : World) : World :=
  (if ok then w
   else w |> toast toastError "Failed to load dashboard data"
          |> consoleLog "Dashboard error:")
  |> setState env (Dash.setLoading false).

(** The manual "update location" button. *)
Definition updateLocation (env : Closure) (w : World) : World :=
  match dashboard w ≫= Dash.currentLocation with
  | None =>
      w |> toast toastError "Location not available. Please enable location services."
  | Some currentLocation =>
      w |> setState env (Dash.setLocationLoading true)
        |> request env AfterUpdateLocation
             (PostDriverLocation {| lat := lat currentLocation; lng := lng currentLocation |})
  end.

Definition afterUpdateLocation (env : Closure) (ok : bool) (w : World) : World :=
  (if ok then w |> toast toastSuccess "Location updated successfully!"
   else w |> toast toastError "Failed to update location")
  |> setState env (Dash.setLocationLoading false).

(** [acceptOrder], [acceptOrderRequest] and [rejectOrderRequest]. *)
Definition orderAction (env : Closure) (kind : OrderActionKind) (orderId : N)
    : World -> World :=
  request env (AfterOrderAction kind) (PostOrderAction kind orderId).

Definition orderActionDone (kind : OrderActionKind) : string :=
  match kind with
  | accept => "Order accepted successfully!"
  | accept_request => "Order request accepted!"
  | reject_request => "Order request rejected"
  end.

Definition orderActionFailed (kind : OrderActionKind) : string :=
  match kind with
  | accept => "Failed to accept order"
  | accept_request => "Failed to accept order request"
  | reject_request => "Failed to reject order request"
  end.

Definition afterOrderAction (env : Closure) (kind : OrderActionKind) (ok : bool)
    (w : World) : World :=
  if ok then
    w |> toast toastSuccess (orderActionDone kind)
      |> fetchDashboardData env
  else w |> toast toastError (orderActionFailed kind).

(** The cleanup returned by the last [useEffect]. *)
Definition cleanup (w : World) : World :=
  match driverLocationInterval w with
  | Some handle =>
      w |> clearInterval handle
        |> over_driverLocationInterval (fun _ => None)
  | None => w
  end.

End DriverDashboard.

(** ** [LocationPermissionModal] *)

Module LocationPermissionModal.

Definition probeOptions : PositionOptions :=
  {| enableHighAccuracy := true; timeout := 10000; maximumAge := 60000 |}.

(** [requestLocationPermission], as created by a render in which
    [permissionState] was [p]: the callbacks it passes on see that [p]. *)
Definition requestLocationPermission (env : Closure) (p : Modal.PermissionState)
    (w : World) : World :=
  w |> setModalState env (Modal.setLocationStatus Modal.getting)
    |> setModalState env (Modal.setErrorMessage "")
    |> getCurrentPosition env (ModalProbe p) probeOptions.

(** [sendLocationUpdate] of the same render. *)
Definition sendLocationUpdate (env : Closure) (p : Modal.PermissionState)
    (location : Location) : World -> World :=
  request env (AfterModalSendLocationUpdate p location)
    (PostDriverLocation {| lat := lat location; lng := lng location |}).

(** The code after its [await]: it notifies the parent when the
    [permissionState] of its render is ['granted']. *)
Definition afterSendLocationUpdate (env : Closure) (p : Modal.PermissionState)
    (location : Location) (ok : bool) (w : World) : World :=
  if ok then
    if Modal.isGranted p
    then w |> DriverDashboard.handleLocationEnabled env (Some location)
    else w
  else w |> consoleLog "Failed to update location:".

(** Success callback of the modal's probe. *)
Definition probeSuccess (env : Closure) (p : Modal.PermissionState)
    (position : Coords) (w : World) : World :=
  let location := locationOf position in
  w |> setModalState env (Modal.setCurrentLocation (Some location))
    |> setModalState env (Modal.setPermissionState Modal.granted)
    |> setModalState env (Modal.setLocationStatus Modal.success)
    |> sendLocationUpdate env p location
    |> toast toastSuccess "Location access granted! You are now online.".

Definition handleLocationError (env : Closure) (error : PositionError)
    (w : World) : World :=
  let w1 := w |> setModalState env (Modal.setLocationStatus Modal.failed) in
  match error with
  | PERMISSION_DENIED =>
      w1 |> setModalState env (Modal.setPermissionState Modal.denied)
         |> setModalState env (Modal.setErrorMessage
              "Location access denied. Please enable location permissions in your browser settings and refresh the page.")
  | POSITION_UNAVAILABLE =>
      w1 |> setModalState env (Modal.setPermissionState Modal.error)
         |> setModalState env (Modal.setErrorMessage
              "Location information is unavailable. Please check your device settings and try again.")
  | TIMEOUT =>
      w1 |> setModalState env (Modal.setPermissionState Modal.error)
         |> setModalState env (Modal.setErrorMessage
              "Location request timed out. Please try again.")
  end.

(** The "Try Again" button, clicked in a render whose [permissionState]
    was [p]. *)
Definition retryLocationRequest (env : Closure) (p : Modal.PermissionState)
    (w : World) : World :=
  w |> setModalState env (Modal.setRetryCount S)
    |> setModalState env (Modal.setPermissionState Modal.requesting)
    |> setModalState env (Modal.setLocationStatus Modal.idle)
    |> setModalState env (Modal.setErrorMessage "")
    |> setTimeout env p.

Definition openBrowserSettings : World -> World :=
  toast toastError
    "Please manually enable location permissions in your browser settings and refresh the page.".

(** The "Continue to Dashboard" button. *)
Definition continueToDashboard (env : Closure) (w : World) : World :=
  w |> DriverDashboard.handleLocationEnabled env (modal w ≫= Modal.currentLocation).

(** The [useEffect] on [isOpen]: it runs when the modal is first rendered
    and whenever [isOpen] changes. *)
Definition effect (env : Closure) (isOpen : bool) (w : World) : World :=
  match modal w with
  | Some m =>
      if isOpen then
        if geolocation w
        then w |> requestLocationPermission env (Modal.permissionState m)
        else
          w |> setModalState env (Modal.setPermissionState Modal.error)
            |> setModalState env (Modal.setErrorMessage
                 "Your browser does not support location services. Please use a modern browser.")
      else w
  | None => w
  end.

End LocationPermissionModal.

(** ** [AuthContext] *)

Module AuthContext.

(** A successful [login]. The delayed redirect to a stored path reloads
    the page and is outside the flow. *)
Definition login (newUser : User) (newToken userJson : string) (w : World) : World :=
  let w1 :=
    w |> over_token (fun _ => Some newToken)
      |> over_user (fun _ => Some newUser)
      |> setItem "token" newToken
      |> setItem "user" userJson
      |> over_authorization (fun _ => Some (String.append "Bearer " newToken)) in
  if Js.truthyItem (localStorage w1 !! "redirectAfterLogin")
  then w1 |> removeItem "redirectAfterLogin"
  else w1.

Definition logout (w : World) : World :=
  let w1 :=
    match driverLocationInterval w with
    | Some handle =>
        w |> clearInterval handle
          |> over_driverLocationInterval (fun _ => None)
    | None => w
    end in
  let w2 :=
    if Js.truthy (userId (user w)) then
      w1 |> removeItem (userLocationKey (userId (user w)))
         |> removeItem (userLocationTimeKey (userId (user w)))
    else w1 in
  w2 |> over_token (fun _ => None)
     |> over_user (fun _ => None)
     |> removeItem "token"
     |> removeItem "user"
     |> removeItem "driverLocationPermission"
     |> removeItem "driverLocationPermissionTime"
     |> over_authorization (fun _ => None).

End AuthContext.

(** ** The event loop *)

(** How a request in flight ends. *)
Inductive Outcome :=
| Position (coords : Coords)
| Error (code : PositionError)
| Response
| Failure
| Fired.

(** What can happen next: a component mounts or unmounts, an interval fires,
    a request in flight ends, the user clicks, time passes. *)
Inductive Event :=
| Mount
| Unmount
| Tick (handle : positive)
| Resolve (k : nat) (o : Outcome)
| ClickUpdateLocation
| ClickOrderAction (kind : OrderActionKind) (orderId : N)
| ClickEnableLocationAccess
| ClickContinue
| ClickTryAgain
| ClickHelp
| Elapse (ms : N)
| Login (newUser : User) (newToken userJson : string)
| Logout.

(** The callback that runs when the request [p] ends with [o]; [None] when
    [o] is not an outcome of that kind of request. *)
Definition resolve (p : Pending) (o : Outcome) (w : World) : option World :=
  match p, o with
  | Geo env (SilentProbe timeDiff) _, Position c =>
      Some (DriverDashboard.silentSuccess env timeDiff c w)
  | Geo env (SilentProbe _) _, Error _ =>
      Some (DriverDashboard.silentError env w)
  | Geo env FullProbe _, Position c =>
      Some (DriverDashboard.fullSuccess env c w)
  | Geo env FullProbe _, Error _ =>
      Some (DriverDashboard.fullError env w)
  | Geo env (TrackingProbe _) _, Position c =>
      Some (DriverDashboard.trackingSuccess env c w)
  | Geo env (TrackingProbe interval) _, Error e =>
      Some (DriverDashboard.trackingError env interval e w)
  | Geo env (ModalProbe p) _, Position c =>
      Some (LocationPermissionModal.probeSuccess env p c w)
  | Geo env (ModalProbe _) _, Error e =>
      Some (LocationPermissionModal.handleLocationError env e w)
  | Net env k, (Response | Failure) =>
      let ok := match o with Response => true | _ => false end in
      Some match k with
           | AfterSendLocationUpdate =>
               DriverDashboard.afterSendLocationUpdate ok w
           | AfterModalSendLocationUpdate p location =>
               LocationPermissionModal.afterSendLocationUpdate env p location ok w
           | AfterUpdateLocation =>
               DriverDashboard.afterUpdateLocation env ok w
           | AfterFetchDashboardData =>
               DriverDashboard.afterFetchDashboardData env ok w
           | AfterOrderAction kind =>
               DriverDashboard.afterOrderAction env kind ok w
           end
  | RetryTimeout env p, Fired =>
      Some (LocationPermissionModal.requestLocationPermission env p w)
  | _, _ => None
  end.

(** What is on screen. *)
Definition view (w : World) : option Dash.View :=
  Dash.render <$> dashboard w.

(** The modal's [isOpen] prop. *)
Definition isOpen (w : World) : bool :=
  match dashboard w with
  | Some d => Dash.showLocationModal d
  | None => false
  end.

(** The modal is on screen with the given [permissionState] test. *)
Definition modalShows (test : Modal.PermissionState -> bool) (w : World) : bool :=
  match view w, modal w with
  | Some (Dash.BlockedPage true), Some m
  | Some (Dash.Content true), Some m => test (Modal.permissionState m)
  | _, _ => false
  end.

Definition showsContent (w : World) : bool :=
  match view w with
  | Some (Dash.Content _) => true
  | _ => false
  end.

Definition showsBlockedPage (w : World) : bool :=
  match view w with
  | Some (Dash.BlockedPage _) => true
  | _ => false
  end.

Definition guard (b : bool) (w : World) : option World :=
  if b then Some w else None.

(** The handler of an event; [None] when the event cannot happen in [w]
    (the button is not on screen, the interval is not running, ...). *)
Definition handle (e : Event) (w : World) : option World :=
  match e with
  | Mount =>
      match dashboard w with
      | None =>
          let w1 :=
            w |> over_instance S
              |> over_dashboard (fun _ => Some Dash.initial)
              |> over_modal (fun _ => None) in
          Some (w1 |> DriverDashboard.checkLocationPermissionStatus (currentEnv w1))
      | Some _ => None
      end
  | Unmount =>
      match dashboard w with
      | Some _ =>
          Some (w |> DriverDashboard.cleanup
                  |> over_dashboard (fun _ => None)
                  |> over_modal (fun _ => None))
      | None => None
      end
  | Tick interval =>
      env ← intervals w !! interval;
      Some (w |> DriverDashboard.intervalCallback env interval)
  | Resolve k o =>
      p ← pending w !! k;
      w |> over_pending (delete k) |> resolve p o
  | ClickUpdateLocation =>
      guard (showsContent w
             && negb (default false (Dash.locationLoading <$> dashboard w)))
        (w |> DriverDashboard.updateLocation (currentEnv w))
  | ClickOrderAction kind orderId =>
      guard (showsContent w)
        (w |> DriverDashboard.orderAction (currentEnv w) kind orderId)
  | ClickEnableLocationAccess =>
      guard (showsBlockedPage w)
        (w |> setState (currentEnv w) (Dash.setShowLocationModal true))
  | ClickContinue =>
      guard (modalShows Modal.isGranted w)
        (w |> LocationPermissionModal.continueToDashboard (currentEnv w))
  | ClickTryAgain =>
      guard (modalShows Modal.isFailure w)
        (w |> LocationPermissionModal.retryLocationRequest (currentEnv w)
                (default Modal.requesting (Modal.permissionState <$> modal w)))
  | ClickHelp =>
      guard (modalShows Modal.isFailure w)
        (w |> LocationPermissionModal.openBrowserSettings)
  | Elapse ms => Some (w |> over_now (fun t => (t + ms)%N))
  | Login newUser newToken userJson =>
      Some (w |> AuthContext.login newUser newToken userJson)
  | Logout => Some (w |> AuthContext.logout)
  end.

Definition wasGranted (w : World) : bool :=
  match dashboard w with
  | Some d => Dash.locationPermissionGranted d
  | None => false
  end.

(** The React effects that follow a handler, from the state before it and
    after it. The modal is part of both non-spinner returns, so it is mounted
    by the first of them and stays; its effect runs then and each time
    [isOpen] turns true. The dashboard's effect on
    [locationPermissionGranted] fetches the data each time the flag turns
    true. Children run their effects first. *)
Definition commit (before after : World) : World :=
  match dashboard after with
  | None => after
  | Some d =>
      let env := currentEnv after in
      let w1 :=
        match Dash.render d with
        | Dash.Spinner => after
        | _ =>
            match modal after with
            | None =>
                after |> over_modal (fun _ => Some Modal.initial)
                      |> LocationPermissionModal.effect env (Dash.showLocationModal d)
            | Some _ =>
                if Dash.showLocationModal d && negb (isOpen before)
                then after |> LocationPermissionModal.effect env true
                else after
            end
        end in
      if Dash.locationPermissionGranted d && negb (wasGranted before)
      then w1 |> DriverDashboard.fetchDashboardData env
      else w1
  end.

(** One turn of the event loop. *)
Definition step (e : Event) (w : World) : option World :=
  commit w <$> handle e w.

(** A sequence of turns. *)
Fixpoint run (es : list Event) (w : World) : option World :=
  match es with
  | [] => Some w
  | e :: es' => step e w ≫= run es'
  end.

(** A world the application can be in: some events after a page load. *)
Definition reachable (w : World) : Prop :=
  ∃ storage supported t es, run es (pageLoad storage supported t) = Some w.

(** ** The spec's view of the consent cache *)

Inductive ConsentStatus := consentGranted | consentDenied.

Record ConsentRecord := { status : ConsentStatus; grantedAtEpochMs : Z }.

Definition consentStatus (value : string) : option ConsentStatus :=
  if String.eqb value "granted" then Some consentGranted
  else if String.eqb value "denied" then Some consentDenied
  else None.

(** The [ConsentRecord] of a user, as the two per-user keys encode it: a
    status and an epoch-millisecond string. *)
Definition storedConsent (storage : gmap string string) (uid : Js.Id)
    : option ConsentRecord :=
  match storage !! userLocationKey uid, storage !! userLocationTimeKey uid with
  | Some value, Some time =>
      match consentStatus value, Js.parseInt time with
      | Some s, Some ms => Some {| status := s; grantedAtEpochMs := ms |}
      | _, _ => None
      end
  | _, _ => None
  end.




(** ** Invariants of the event loop *)

Definition envOf (p : Pending) : Closure :=
  match p with
  | Geo env _ _ => env
  | Net env _ => env
  | RetryTimeout env _ => env
  end.

(** Interval handles in use were issued by [setInterval]. *)
Definition handlesIssued (w : World) : Prop :=
  (∀ h env, intervals w !! h = Some env → (h < nextHandle w)%positive)
  ∧ (∀ env i o, Geo env (TrackingProbe i) o ∈ pending w → (i < nextHandle w)%positive)
  ∧ (∀ h, driverLocationInterval w = Some h → (h < nextHandle w)%positive).

(** The interval [h] was issued and is not running. *)
Definition cancelled (h : positive) (w : World) : Prop :=
  intervals w !! h = None ∧ (h < nextHandle w)%positive.

(** Closures belong to instances that were mounted. *)
Definition ownersMounted (w : World) : Prop :=
  (∀ p, p ∈ pending w → (owner (envOf p) ≤ instance w)%nat)
  ∧ (∀ h env, intervals w !! h = Some env → (owner env ≤ instance w)%nat).

(** The reporter of the mounted instance runs only once its permission check
    has completed. *)
Definition trackingAfterCheck (w : World) : Prop :=
  ∀ d, dashboard w = Some d →
    (∀ env i o, Geo env (TrackingProbe i) o ∈ pending w →
       owner env = instance w → Dash.permissionCheckComplete d = true)
    ∧ (∀ h env, intervals w !! h = Some env →
       owner env = instance w → Dash.permissionCheckComplete d = true).

(** The modal is mounted as soon as the dashboard shows something else than
    the spinner. *)
Definition modalMounted (w : World) : Prop :=
  ∀ d, dashboard w = Some d → Dash.render d ≠ Dash.Spinner → is_Some (modal w).

(** Every location the application holds or has posted satisfies [P]. *)
Definition locationsFrom (P : Location → Prop) (w : World) : Prop :=
  (∀ l, PostDriverLocation l ∈ network w → P l)
  ∧ (∀ d l, dashboard w = Some d → Dash.currentLocation d = Some l → P l)
  ∧ (∀ m l, modal w = Some m → Modal.currentLocation m = Some l → P l)
  ∧ (∀ env p l, Net env (AfterModalSendLocationUpdate p l) ∈ pending w → P l).

(** The positions the device has returned during a run. *)
Definition probed (es : list Event) : list Coords :=
  omap (fun e => match e with Resolve _ (Position c) => Some c | _ => None end) es.




(** ** A concrete session *)

Module Example.

Definition driver : User := {| id := Js.IdNumber 7 |}.

(** A page loaded with an empty [localStorage] in a browser that has
    geolocation. *)
Definition page : World := pageLoad ∅ true 1700000000000.

Definition p0 : Coords := {| latitude := 12.5; longitude := 77.25 |}.
Definition p1 : Coords := {| latitude := 12.75; longitude := 77.5 |}.
Definition p2 : Coords := {| latitude := 13; longitude := 78 |}.
Definition p3 : Coords := {| latitude := 14; longitude := 79 |}.

(** The driver logs in and opens the dashboard: the first-time probe is in
    flight. *)
Definition mounted : list Event := [Login driver "jwt" "{}"; Mount].

(** The browser grants the position: the gate opens, interval 1 starts,
    the first push and the data fetch are in flight. *)
Definition granted : list Event := (mounted ++ [Resolve 0 (Position p0)])%list.

(** Both requests are answered: the dashboard content is on screen. *)
Definition online : list Event := (granted ++ [Resolve 0 Response; Resolve 0 Response])%list.

(** Interval 1 fires: a periodic probe is in flight. *)
Definition ticking : list Event := (online ++ [Tick 1%positive])%list.

(** The probe is refused: the gate closes and the modal opens; its effect,
    created while [permissionState] was ['requesting'], starts a probe. *)
Definition revoked : list Event :=
  (ticking ++ [Resolve 0 (Error PERMISSION_DENIED)])%list.

(** The modal's probe succeeds and its push is answered; the driver
    clicks "Continue to Dashboard"; interval 2 starts and the two requests
    of the gate are answered. *)
Definition regranted : list Event :=
  (revoked ++ [Resolve 0 (Position p1); Resolve 0 Response; ClickContinue;
               Resolve 0 Response; Resolve 0 Response])%list.

(** Interval 2 fires and its probe is refused: the modal opens again, still
    showing ['granted']; its effect, created in that render, starts a
    probe. *)
Definition revokedAgain : list Event :=
  (regranted ++ [Tick 2%positive; Resolve 0 (Error PERMISSION_DENIED)])%list.

(** The probe succeeds and the modal posts the position; the driver clicks
    "Continue to Dashboard" (interval 3); then the post is answered and the
    modal calls [onLocationEnabled] itself (interval 4). *)
Definition enabledTwice : list Event :=
  (revokedAgain ++ [Resolve 0 (Position p2); ClickContinue; Resolve 0 Response])%list.

(** The world after a run from [page]. *)
Definition world (es : list Event) : World := default page (run es page).

End Example.

(** * Proofs *)

(** ** Proof automation *)

Ltac unfold_handlers :=
  unfold DriverDashboard.silentSuccess, DriverDashboard.silentError,
    DriverDashboard.fullSuccess, DriverDashboard.fullError,
    DriverDashboard.trackingSuccess, DriverDashboard.trackingError,
    DriverDashboard.afterSendLocationUpdate, DriverDashboard.afterUpdateLocation,
    DriverDashboard.afterFetchDashboardData, DriverDashboard.afterOrderAction,
    DriverDashboard.checkLocationPermissionStatus, DriverDashboard.cleanup,
    DriverDashboard.intervalCallback, DriverDashboard.updateLocation,
    DriverDashboard.orderAction,
    LocationPermissionModal.effect,
    LocationPermissionModal.probeSuccess, LocationPermissionModal.handleLocationError,
    LocationPermissionModal.afterSendLocationUpdate,
    LocationPermissionModal.continueToDashboard,
    LocationPermissionModal.retryLocationRequest,
    LocationPermissionModal.requestLocationPermission,
    LocationPermissionModal.openBrowserSettings,
    LocationPermissionModal.sendLocationUpdate,
    AuthContext.login, AuthContext.logout,
    DriverDashboard.handleLocationEnabled, DriverDashboard.startLiveLocationTracking,
    DriverDashboard.sendLocationUpdate, DriverDashboard.fetchDashboardData,
    request, setInterval, clearInterval, setTimeout, getCurrentPosition,
    toast, consoleLog, setItem, removeItem, setState, setModalState, currentEnv in *.

(** Reduce the projections of an updated world. *)
Ltac proj :=
  cbn [localStorage driverLocationInterval intervals nextHandle pending network
       toasts console now geolocation user token authorization instance dashboard modal
       over_localStorage over_driverLocationInterval over_intervals over_nextHandle
       over_pending over_network over_toasts over_console over_now over_user
       over_token over_authorization over_instance over_dashboard over_modal
       owner uid envOf] in *.

(** Case analysis on a handler that ran: one goal per callback, with the
    world it produced substituted. *)
Ltac handled H :=
  match type of H with
  | handle ?e ?w = Some ?w1 =>
      destruct e as [ | |?interval|?k ?o| |?kind ?orderId| | | | |?ms|?newUser ?newToken ?userJson| ];
      cbn [handle] in H; unfold guard in H;
      repeat match type of H with
        | context [match ?x with _ => _ end] => destruct x eqn:?; try discriminate H
        | (_ ≫= _) = Some _ => apply bind_Some in H; destruct H as (? & ? & H)
        end;
      try (unfold resolve in H;
      repeat match type of H with
        | context [match ?x with _ => _ end] => destruct x eqn:?; try discriminate H
        end);
      try (injection H as <-)
  end.

(** Membership in the lists and maps the handlers build. *)
Ltac split_mem :=
  repeat match goal with
    | H : _ ∈ (_ ++ _)%list |- _ => apply elem_of_app in H as [H|H]
    | H : _ ∈ [_] |- _ => apply list_elem_of_singleton in H; simplify_eq
    | H : _ ∈ delete _ _ |- _ => apply list_elem_of_delete_inv in H
    | H : _ ∈ [] |- _ => by apply elem_of_nil in H
    end.

Ltac split_lookup :=
  repeat match goal with
    | H : <[_ := _]> _ !! _ = Some _ |- _ =>
        apply lookup_insert_Some in H as [[<- <-]|[? H]]
    | H : delete _ _ !! _ = Some _ |- _ =>
        apply lookup_delete_Some in H as [? H]
    end.

(** Reduce the fields of an updated component state. *)
Ltac dash_fields :=
  cbn [Dash.loading Dash.locationLoading Dash.currentLocation Dash.showLocationModal
       Dash.locationPermissionGranted Dash.dashboardBlocked Dash.permissionCheckComplete
       Dash.setLoading Dash.setLocationLoading
       Dash.setCurrentLocation Dash.setShowLocationModal
       Dash.setLocationPermissionGranted Dash.setDashboardBlocked
       Dash.setPermissionCheckComplete Dash.initial
       Modal.permissionState Modal.locationStatus Modal.errorMessage
       Modal.currentLocation Modal.retryCount
       Modal.setPermissionState Modal.setLocationStatus Modal.setErrorMessage
       Modal.setCurrentLocation Modal.setRetryCount Modal.initial] in *.

(** ** [parseInt] reads back what [toString] wrote *)

Example parseInt_now : Js.parseInt (Js.toString 1700000000000) = Some 1700000000000.
Proof. reflexivity. Qed.

Example parseInt_prefix : Js.parseInt "  -12abc" = Some (-12).
Proof. reflexivity. Qed.

Example parseInt_hex : Js.parseInt "0x1F" = Some 31.
Proof. reflexivity. Qed.

Example parseInt_nan : Js.parseInt "granted" = None.
Proof. reflexivity. Qed.


Section ParseIntToString.

Ltac digit_step :=
  cbn [NilEmpty.string_of_uint Js.parseDigits Pos.of_uint_acc Pos.of_uint];
  match goal with
  | |- context [Js.digitValue 10 ?c] =>
      let v := eval vm_compute in (Js.digitValue 10 c) in
      change (Js.digitValue 10 c) with v
  end;
  cbn [default from_option]; unfold Datatypes.id.

Lemma parseDigits_acc (d : Decimal.uint) (p : positive) :
  Js.parseDigits 10 (NilEmpty.string_of_uint d) (Some (Z.pos p))
  = Some (Z.pos (Pos.of_uint_acc d p)).
Proof.
  revert p. induction d; intros p; [reflexivity | ..];
    digit_step; rewrite <- IHd; f_equal; f_equal; lia.
Qed.

Lemma parseDigits_zero (d : Decimal.uint) :
  Js.parseDigits 10 (NilEmpty.string_of_uint d) (Some 0)
  = Some (Z.of_N (Pos.of_uint d)).
Proof.
  induction d; [reflexivity | ..]; digit_step;
    first [ exact IHd | apply (parseDigits_acc d) ].
Qed.

(** The first digit turns [NaN] into a number. *)
Lemma parseDigits_start (d : Decimal.uint) :
  d ≠ Decimal.Nil →
  Js.parseDigits 10 (NilEmpty.string_of_uint d) None
  = Js.parseDigits 10 (NilEmpty.string_of_uint d) (Some 0).
Proof. destruct d; [congruence | ..]; intros _; reflexivity. Qed.

(** A decimal numeral has no white space, sign or hexadecimal prefix. *)
Lemma parseInt_numeral (d : Decimal.uint) :
  d ≠ Decimal.Nil →
  Js.parseInt (NilEmpty.string_of_uint d)
  = Z.mul 1 <$> Js.parseDigits 10 (NilEmpty.string_of_uint d) None.
Proof.
  destruct d as [|d|d|d|d|d|d|d|d|d|d]; [congruence | ..]; intros _;
    try reflexivity; destruct d; reflexivity.
Qed.

Lemma toString_numeral (n : N) :
  Js.toString n = NilEmpty.string_of_uint (N.to_uint n).
Proof.
  unfold Js.toString. destruct n as [|p]; [reflexivity|].
  cbn [N.to_uint]. pose proof (Unsigned.to_uint_nonnil p) as Hp.
  destruct (Pos.to_uint p); [congruence | reflexivity ..].
Qed.

Lemma to_uint_nonnil (n : N) : N.to_uint n ≠ Decimal.Nil.
Proof. destruct n; [discriminate | apply Unsigned.to_uint_nonnil]. Qed.

(** [parseInt(n.toString())] is [n]: what the gate stores as
    [Date.now().toString()] is read back unchanged. *)
Lemma parseInt_toString (n : N) : Js.parseInt (Js.toString n) = Some (Z.of_N n).
Proof.
  rewrite toString_numeral, parseInt_numeral by apply to_uint_nonnil.
  rewrite parseDigits_start by apply to_uint_nonnil.
  rewrite parseDigits_zero. cbn [fmap option_fmap option_map].
  change (Pos.of_uint (N.to_uint n)) with (N.of_uint (N.to_uint n)).
  rewrite DecimalN.Unsigned.of_to. f_equal. lia.
Qed.

End ParseIntToString.

(** ** Runs *)

Lemma run_app (es1 es2 : list Event) (w : World) :
  run (es1 ++ es2) w = run es1 w ≫= run es2.
Proof.
  revert w. induction es1 as [|e es1 IH]; intros w; cbn [run app].
  - reflexivity.
  - destruct (step e w) as [w1|]; cbn; [apply IH | reflexivity].
Qed.

Lemma run_invariant (P : World → Prop) :
  (∀ e w w', P w → step e w = Some w' → P w') →
  ∀ es w w', P w → run es w = Some w' → P w'.
Proof.
  intros Hstep es. induction es as [|e es IH]; intros w w' Hw Hrun; cbn [run] in Hrun.
  - congruence.
  - apply bind_Some in Hrun as (w1 & H1 & Hrun). eauto.
Qed.

Lemma reachable_invariant (P : World → Prop) :
  (∀ storage supported t, P (pageLoad storage supported t)) →
  (∀ e w w', P w → step e w = Some w' → P w') →
  ∀ w, reachable w → P w.
Proof.
  intros Hinit Hstep w (storage & supported & t & es & Hrun).
  eapply run_invariant; eauto.
Qed.

Lemma reachable_step (e : Event) (w w' : World) :
  reachable w → step e w = Some w' → reachable w'.
Proof.
  intros (storage & supported & t & es & Hrun) Hstep.
  exists storage, supported, t, (es ++ [e])%list.
  rewrite run_app, Hrun. cbn. rewrite Hstep. reflexivity.
Qed.

Lemma reachable_run (es : list Event) (w w' : World) :
  reachable w → run es w = Some w' → reachable w'.
Proof.
  intros (storage & supported & t & es0 & Hrun0) Hrun.
  exists storage, supported, t, (es0 ++ es)%list.
  rewrite run_app, Hrun0. exact Hrun.
Qed.

Lemma step_handle (e : Event) (w w' : World) :
  step e w = Some w' → ∃ w1, handle e w = Some w1 ∧ w' = commit w w1.
Proof.
  unfold step. intros H. apply fmap_Some in H as (w1 & H1 & ->). eauto.
Qed.

(** The effects never touch what the handlers own outside React. *)
Lemma commit_intervals (w w1 : World) : intervals (commit w w1) = intervals w1.
Proof. unfold commit. unfold_handlers. repeat (case_match; proj); congruence. Qed.

Lemma commit_nextHandle (w w1 : World) : nextHandle (commit w w1) = nextHandle w1.
Proof. unfold commit. unfold_handlers. repeat (case_match; proj); congruence. Qed.

Lemma commit_driverLocationInterval (w w1 : World) :
  driverLocationInterval (commit w w1) = driverLocationInterval w1.
Proof. unfold commit. unfold_handlers. repeat (case_match; proj); congruence. Qed.

Lemma commit_localStorage (w w1 : World) : localStorage (commit w w1) = localStorage w1.
Proof. unfold commit. unfold_handlers. repeat (case_match; proj); congruence. Qed.

Lemma commit_dashboard (w w1 : World) : dashboard (commit w w1) = dashboard w1.
Proof. unfold commit. unfold_handlers. repeat (case_match; proj); congruence. Qed.

Lemma commit_instance (w w1 : World) : instance (commit w w1) = instance w1.
Proof. unfold commit. unfold_handlers. repeat (case_match; proj); congruence. Qed.

Lemma commit_toasts (w w1 : World) : toasts (commit w w1) = toasts w1.
Proof. unfold commit. unfold_handlers. repeat (case_match; proj); congruence. Qed.

Lemma commit_console (w w1 : World) : console (commit w w1) = console w1.
Proof. unfold commit. unfold_handlers. repeat (case_match; proj); congruence. Qed.

(** When neither flag watched by an effect changed and the modal is
    mounted, no effect runs. *)
Lemma commit_quiet (w w1 : World) :
  modalMounted w → dashboard w1 = dashboard w → modal w1 = modal w →
  commit w w1 = w1.
Proof.
  intros Hm Hd Hmod. unfold commit, isOpen, wasGranted. rewrite Hd.
  destruct (dashboard w) as [d|] eqn:Hdash; [|reflexivity].
  rewrite andb_negb_r.
  destruct (Dash.render d) eqn:Hr; [reflexivity | ..];
    (destruct (Hm d Hdash ltac:(congruence)) as [m Hmw];
     rewrite Hmod, Hmw, andb_negb_r; reflexivity).
Qed.

Lemma commit_modalMounted (w w1 : World) : modalMounted (commit w w1).
Proof.
  intros d Hd Hr. rewrite commit_dashboard in Hd.
  unfold commit. rewrite Hd. unfold_handlers.
  destruct (Dash.render d) eqn:Hrd; [congruence | ..];
    repeat (case_match; proj); eauto;
    try (match goal with H : modal _ = Some _ |- _ => rewrite H end; eauto).
Qed.

Lemma reachable_modalMounted (w : World) : reachable w → modalMounted w.
Proof.
  apply reachable_invariant.
  - intros ? ? ? d Hd. discriminate.
  - intros e w1 w' _ Hstep. apply step_handle in Hstep as (w2 & _ & ->).
    apply commit_modalMounted.
Qed.

(** ** Storage keys *)

Lemma location_eta (l : Location) : {| lat := lat l; lng := lng l |} = l.
Proof. destruct l; reflexivity. Qed.

Lemma userLocationKey_ne_time (a b : Js.Id) : userLocationKey a ≠ userLocationTimeKey b.
Proof. unfold userLocationKey, userLocationTimeKey. cbv [String.append]. congruence. Qed.


(** ** The gate's choice of probe *)



(** What the gate writes on a grant is the record [{granted, now}]. *)
Lemma storedConsent_granted (storage : gmap string string) (uid : Js.Id) (t : N) :
  storedConsent
    (<[userLocationTimeKey uid := Js.toString t]>
       (<[userLocationKey uid := "granted"]> storage)) uid
  = Some {| status := consentGranted; grantedAtEpochMs := Z.of_N t |}.
Proof.
  unfold storedConsent.
  rewrite lookup_insert_ne by (symmetry; apply userLocationKey_ne_time).
  rewrite !lookup_insert_eq, parseInt_toString. reflexivity.
Qed.

(** The grant written by the first-time probe and by the modal's handler
    is read back as the record [{granted, now}]. *)
Lemma fullSuccess_stores_consent (env : Closure) (c : Coords) (w : World) :
  storedConsent (localStorage (DriverDashboard.fullSuccess env c w)) (uid env)
  = Some {| status := consentGranted; grantedAtEpochMs := Z.of_N (now w) |}.
Proof.
  unfold DriverDashboard.fullSuccess. unfold_handlers. proj.
  apply storedConsent_granted.
Qed.

Lemma handleLocationEnabled_stores_consent (env : Closure) (l : option Location)
    (w : World) :
  storedConsent (localStorage (DriverDashboard.handleLocationEnabled env l w)) (uid env)
  = Some {| status := consentGranted; grantedAtEpochMs := Z.of_N (now w) |}.
Proof.
  unfold DriverDashboard.handleLocationEnabled. unfold_handlers.
  destruct l; proj; apply storedConsent_granted.
Qed.



(** ** Callbacks of the probes, one at a time *)

Lemma step_resolve (k : nat) (o : Outcome) (p : Pending) (w w1 : World) :
  pending w !! k = Some p →
  resolve p o (over_pending (delete k) w) = Some w1 →
  step (Resolve k o) w = Some (commit w w1).
Proof.
  intros Hp Hr. unfold step. cbn [handle]. rewrite Hp. cbn. rewrite Hr. reflexivity.
Qed.

(** C6 (as amended). When the first-time (non-silent) probe fails, the gate
    persists the per-user permission key with value "denied" and nothing
    else: the permission-time key keeps whatever it held. The mounted
    dashboard goes to blockedNeedsConsent with the modal flag set. *)
Theorem C6_full_probe_failure_marks_denied
    (w : World) (k : nat) (env : Closure) (options : PositionOptions) (e : PositionError) :
  pending w !! k = Some (Geo env FullProbe options) →
  ∃ w', step (Resolve k (Error e)) w = Some w'
    ∧ localStorage w' = <[userLocationKey (uid env) := "denied"]> (localStorage w)
    ∧ localStorage w' !! userLocationTimeKey (uid env)
      = localStorage w !! userLocationTimeKey (uid env)
    ∧ ∀ d, dashboard w = Some d → owner env = instance w →
        ∃ d', dashboard w' = Some d'
          ∧ Dash.gate d' = Dash.blockedNeedsConsent
          ∧ Dash.showLocationModal d' = true
          ∧ Dash.locationPermissionGranted d' = false.
Proof.
  intros Hp. eexists. split; [|split; [|split]].
  - eapply step_resolve; [exact Hp | reflexivity].
  - rewrite commit_localStorage. reflexivity.
  - rewrite commit_localStorage. unfold_handlers. proj.
    apply lookup_insert_ne, userLocationKey_ne_time.
  - intros d Hd Hown. rewrite commit_dashboard. unfold_handlers. proj.
    rewrite Hd, Hown, Nat.eqb_refl. cbn. eexists. split; [reflexivity|].
    repeat split; reflexivity.
Qed.


(** C8. When a periodic probe fails with position-unavailable or timeout
    (anything but permission-denied) the failure is only logged: the
    callback leaves the running intervals, the global handle, the gate
    state, the stored consent keys, the toasts and the network untouched, so
    the timer goes on to its next tick and the session stays as it was
    (open, no modal). *)
Theorem C8_tracking_failure_only_logged
    (w : World) (k : nat) (env : Closure) (interval : positive)
    (options : PositionOptions) (e : PositionError) :
  reachable w →
  pending w !! k = Some (Geo env (TrackingProbe interval) options) →
  e ≠ PERMISSION_DENIED →
  ∃ w', step (Resolve k (Error e)) w = Some w'
    ∧ console w' = (console w ++ ["Live location tracking error:"])%list
    ∧ intervals w' = intervals w
    ∧ driverLocationInterval w' = driverLocationInterval w
    ∧ dashboard w' = dashboard w
    ∧ modal w' = modal w
    ∧ localStorage w' = localStorage w
    ∧ toasts w' = toasts w
    ∧ network w' = network w
    ∧ pending w' = delete k (pending w)
    ∧ (is_Some (intervals w !! interval) → is_Some (step (Tick interval) w')).
Proof.
  intros Hreach Hp Hne.
  set (w1 := w |> over_pending (delete k) |> consoleLog "Live location tracking error:").
  assert (Hstep : step (Resolve k (Error e)) w = Some w1).
  { erewrite step_resolve; [| exact Hp | reflexivity].
    f_equal. unfold DriverDashboard.trackingError. fold w1.
    replace (match e with PERMISSION_DENIED => _ | _ => w1 end) with w1
      by (destruct e; congruence).
    apply commit_quiet; [by apply reachable_modalMounted | reflexivity..]. }
  exists w1. split; [exact Hstep|].
  repeat split; try reflexivity.
  intros [env' Henv]. unfold step. cbn [handle]. subst w1. unfold_handlers. proj.
  rewrite Henv. cbn. eauto.
Qed.

(** ** Interval handles *)

(** What the effects add to the requests in flight. *)
Lemma commit_pending (w w1 : World) (p : Pending) :
  p ∈ pending (commit w w1) →
  p ∈ pending w1
  ∨ (∃ ps o, p = Geo (currentEnv w1) (ModalProbe ps) o)
  ∨ (p = Net (currentEnv w1) AfterFetchDashboardData ∧ wasGranted (commit w w1) = true).
Proof.
  unfold commit, wasGranted. unfold_handlers.
  repeat (case_match; proj); intros Hp; split_mem; simplify_eq; eauto 6;
    try (right; right; split; [reflexivity|]);
    match goal with
    | H : Dash.locationPermissionGranted _ && _ = true |- _ =>
        apply andb_prop in H as [-> _]; reflexivity
    end.
Qed.

Lemma commit_handlesIssued (w w1 : World) :
  handlesIssued w1 → handlesIssued (commit w w1).
Proof.
  intros (Hi & Hp & Hh). unfold handlesIssued.
  rewrite commit_intervals, commit_nextHandle, commit_driverLocationInterval.
  split; [exact Hi | split; [|exact Hh]].
  intros env i o Hin. apply commit_pending in Hin as [Hin|[(ps & o' & [=])|[[=] _]]].
  eauto.
Qed.

Lemma handle_handlesIssued (e : Event) (w w1 : World) :
  handlesIssued w → handle e w = Some w1 → handlesIssued w1.
Proof.
  intros (Hi & Hp & Hh) H. handled H.
  all: repeat match goal with
         | H : pending _ !! _ = Some _ |- _ => apply list_elem_of_lookup_2 in H
         end.
  all: unfold_handlers; proj; repeat (case_match; proj).
  all: split; [|split]; proj.
  all: intros; split_mem; split_lookup; simplify_eq;
    repeat (match goal with
         | H : intervals _ !! _ = Some _ |- _ => apply Hi in H
         | H : Geo _ (TrackingProbe _) _ ∈ pending _ |- _ => apply Hp in H
         | H : driverLocationInterval _ = Some _ |- _ => apply Hh in H
         end); lia.
Qed.

Lemma reachable_handlesIssued (w : World) : reachable w → handlesIssued w.
Proof.
  apply reachable_invariant.
  - intros. split; [|split].
    + intros h env Hl. change ((∅ : gmap positive Closure) !! h = Some env) in Hl.
      rewrite lookup_empty in Hl. discriminate.
    + intros env i o Hin. by apply elem_of_nil in Hin.
    + intros h [=].
  - intros e w1 w' Hinv Hstep. apply step_handle in Hstep as (w2 & Hh & ->).
    eauto using commit_handlesIssued, handle_handlesIssued.
Qed.

(** A cancelled interval never runs again: [setInterval] only issues new
    handles. *)
Lemma handle_cancelled (h : positive) (e : Event) (w w1 : World) :
  cancelled h w → handle e w = Some w1 → cancelled h w1.
Proof.
  intros (Hn & Hlt) H. handled H.
  all: unfold_handlers; proj; repeat (case_match; proj).
  all: split; proj;
    rewrite ?lookup_delete_None, ?lookup_insert_None; try lia; eauto;
    try (split; [by eauto | lia]).
Qed.

Lemma step_cancelled (h : positive) (e : Event) (w w' : World) :
  cancelled h w → step e w = Some w' → cancelled h w'.
Proof.
  intros Hc Hstep. apply step_handle in Hstep as (w1 & Hh & ->).
  unfold cancelled. rewrite commit_intervals, commit_nextHandle.
  eapply handle_cancelled; eauto.
Qed.

Lemma run_cancelled (h : positive) (es : list Event) (w w' : World) :
  cancelled h w → run es w = Some w' → cancelled h w'.
Proof. apply run_invariant. intros e. apply step_cancelled. Qed.

Lemma cancelled_no_tick (h : positive) (w : World) :
  cancelled h w → step (Tick h) w = None.
Proof. intros (Hn & _). unfold step. cbn [handle]. rewrite Hn. reflexivity. Qed.

(** ** Ownership of closures and the gate *)

Lemma commit_ownersMounted (w w1 : World) :
  ownersMounted w1 → ownersMounted (commit w w1).
Proof.
  intros (Hp & Hi). unfold ownersMounted.
  rewrite commit_intervals, commit_instance. split; [|exact Hi].
  intros p Hin. apply commit_pending in Hin as [Hin|[(ps & o & ->)|[-> _]]]; eauto.
Qed.

Lemma handle_ownersMounted (e : Event) (w w1 : World) :
  ownersMounted w → handle e w = Some w1 → ownersMounted w1.
Proof.
  intros (Hp & Hi) H. handled H.
  all: repeat match goal with
         | H : pending _ !! _ = Some _ |- _ =>
             apply list_elem_of_lookup_2 in H; apply Hp in H
         end.
  all: unfold_handlers; proj; repeat (case_match; proj).
  all: split; proj; intros; split_mem; split_lookup; simplify_eq; proj;
    repeat (match goal with
         | H : intervals _ !! _ = Some _ |- _ => apply Hi in H
         | H : _ ∈ pending _ |- _ => apply Hp in H
         end); lia.
Qed.

Lemma handle_trackingAfterCheck (e : Event) (w w1 : World) :
  ownersMounted w → trackingAfterCheck w →
  handle e w = Some w1 → trackingAfterCheck w1.
Proof.
  intros (Hp & Hi) Ht H. unfold trackingAfterCheck in *.
  destruct (dashboard w) as [d|] eqn:Hd;
    [destruct (Ht d eq_refl) as [Ht1 Ht2] | ]; clear Ht.
  all: handled H; simplify_eq.
  all: repeat match goal with
         | H : pending _ !! _ = Some _ |- _ => apply list_elem_of_lookup_2 in H
         end.
  all: unfold_handlers; proj; repeat (case_match; proj).
  all: intros d' Hd'; proj; rewrite ?Hd in Hd'; cbn in Hd'; simplify_eq.
  all: repeat match goal with
         | H : (_ =? _)%nat = true |- _ => apply Nat.eqb_eq in H
         | H : (_ =? _)%nat = false |- _ => apply Nat.eqb_neq in H
         end.
  all: split; intros; split_mem; split_lookup; simplify_eq; proj;
    cbn [Dash.permissionCheckComplete Dash.setLoading Dash.setLocationLoading
         Dash.setCurrentLocation Dash.setShowLocationModal
         Dash.setLocationPermissionGranted Dash.setDashboardBlocked
         Dash.setPermissionCheckComplete Dash.initial];
    try reflexivity; try congruence; eauto.
  all: repeat (match goal with
         | H : intervals _ !! _ = Some _ |- _ => apply Hi in H
         | H : _ ∈ pending _ |- _ => apply Hp in H
         end); proj; try lia.
Qed.

Lemma commit_trackingAfterCheck (w w1 : World) :
  trackingAfterCheck w1 → trackingAfterCheck (commit w w1).
Proof.
  intros Ht d Hd. rewrite commit_dashboard in Hd.
  rewrite commit_intervals, commit_instance.
  destruct (Ht d Hd) as [Ht1 Ht2]. split; [|exact Ht2].
  intros env i o Hin. apply commit_pending in Hin as [Hin|[(ps & o' & [=])|[[=] _]]].
  eauto.
Qed.

Lemma reachable_gate (w : World) :
  reachable w → ownersMounted w ∧ trackingAfterCheck w.
Proof.
  revert w. apply (reachable_invariant (fun w => ownersMounted w ∧ trackingAfterCheck w)).
  - intros. split; [split|].
    + intros p Hin. by apply elem_of_nil in Hin.
    + intros h env Hl. change ((∅ : gmap positive Closure) !! h = Some env) in Hl.
      rewrite lookup_empty in Hl. discriminate.
    + intros d [=].
  - intros e w1 w' [Ho Ht] Hstep. apply step_handle in Hstep as (w2 & Hh & ->).
    split; eauto using commit_ownersMounted, handle_ownersMounted,
      commit_trackingAfterCheck, handle_trackingAfterCheck.
Qed.

(** ** The periodic reporter *)

Lemma commit_unmounted (w w1 : World) : dashboard w1 = None → commit w w1 = w1.
Proof. intros H. unfold commit. rewrite H. reflexivity. Qed.

(** C2. When a periodic probe fails with permission-denied, its callback
    cancels the interval that fired, which never runs again in any
    continuation of the session (no later tick of it is possible), removes
    both per-user consent keys from [localStorage], shows the error toast,
    and puts the mounted dashboard in blockedNeedsConsent: dashboardBlocked
    and the modal flag are both set. *)
Theorem C2_tracking_permission_denied
    (w : World) (k : nat) (env : Closure) (interval : positive)
    (options : PositionOptions) :
  reachable w →
  pending w !! k = Some (Geo env (TrackingProbe interval) options) →
  ∃ w', step (Resolve k (Error PERMISSION_DENIED)) w = Some w'
    ∧ intervals w' !! interval = None
    ∧ (∀ es w'', run es w' = Some w'' →
         intervals w'' !! interval = None ∧ step (Tick interval) w'' = None)
    ∧ localStorage w' !! userLocationKey (uid env) = None
    ∧ localStorage w' !! userLocationTimeKey (uid env) = None
    ∧ last (toasts w')
      = Some (toastError, "Location access was disabled. Please re-enable to stay online.")
    ∧ ∀ d, dashboard w = Some d → owner env = instance w →
        ∃ d', dashboard w' = Some d'
          ∧ Dash.dashboardBlocked d' = true
          ∧ Dash.showLocationModal d' = true
          ∧ Dash.locationPermissionGranted d' = false
          ∧ Dash.gate d' = Dash.blockedNeedsConsent.
Proof.
  intros Hreach Hp.
  pose proof (list_elem_of_lookup_2 _ _ _ Hp) as Hin.
  destruct (reachable_handlesIssued w Hreach) as (_ & Hissued & _).
  destruct (reachable_gate w Hreach) as (_ & Hgate).
  eexists. split; [eapply step_resolve; [exact Hp | reflexivity] |].
  assert (Hc : cancelled interval
                 (commit w (DriverDashboard.trackingError env interval PERMISSION_DENIED
                              (over_pending (delete k) w)))).
  { split; rewrite ?commit_intervals, ?commit_nextHandle; unfold_handlers; proj.
    - apply lookup_delete_eq.
    - eauto. }
  split; [apply Hc|]. split.
  { intros es w'' Hrun. pose proof (run_cancelled _ _ _ _ Hc Hrun) as Hc'.
    split; [apply Hc' | by apply cancelled_no_tick]. }
  rewrite !commit_localStorage, commit_toasts, commit_dashboard.
  unfold_handlers; proj.
  split; [|split; [|split]].
  - rewrite lookup_delete_ne by apply not_eq_sym, userLocationKey_ne_time.
    apply lookup_delete_eq.
  - apply lookup_delete_eq.
  - apply last_snoc.
  - intros d Hd Hown. rewrite Hd, Hown, Nat.eqb_refl. cbn.
    eexists. split; [reflexivity|]. repeat split.
    unfold Dash.gate. cbn.
    destruct (Hgate d Hd) as [Hcomplete _].
    rewrite (Hcomplete _ _ _ Hin Hown). reflexivity.
Qed.

(** C4 (as amended). Unmounting the dashboard cancels the interval held in
    the global handle and clears the handle; that interval never runs again,
    so it starts no further probe. Requests already in flight are not
    cancelled and no liveness check guards their callbacks: a periodic probe
    that answers after the teardown still posts its position to
    /driver/location. *)
Theorem C4_unmount_cancels_registered_interval (w : World) (h : positive) :
  reachable w → is_Some (dashboard w) → driverLocationInterval w = Some h →
  ∃ w', step Unmount w = Some w'
    ∧ driverLocationInterval w' = None
    ∧ intervals w' = delete h (intervals w)
    ∧ pending w' = pending w
    ∧ network w' = network w
    ∧ (∀ es w'', run es w' = Some w'' →
         intervals w'' !! h = None ∧ step (Tick h) w'' = None)
    ∧ ∀ k env i options c,
        pending w' !! k = Some (Geo env (TrackingProbe i) options) →
        ∃ w2, step (Resolve k (Position c)) w' = Some w2
          ∧ network w2 = (network w' ++ [PostDriverLocation (locationOf c)])%list.
Proof.
  intros Hreach [d Hd] Hh.
  destruct (reachable_handlesIssued w Hreach) as (_ & _ & Hissued).
  set (w' := w |> DriverDashboard.cleanup
               |> over_dashboard (fun _ => None)
               |> over_modal (fun _ => None)).
  assert (Hstep : step Unmount w = Some w').
  { unfold step. cbn [handle]. rewrite Hd. reflexivity. }
  assert (Hint : intervals w' = delete h (intervals w)).
  { subst w'. unfold DriverDashboard.cleanup. rewrite Hh. reflexivity. }
  exists w'. split; [exact Hstep|]. split; [|split; [exact Hint|split; [|split; [|split]]]].
  - subst w'. unfold DriverDashboard.cleanup. rewrite Hh. reflexivity.
  - subst w'. unfold DriverDashboard.cleanup. rewrite Hh. reflexivity.
  - subst w'. unfold DriverDashboard.cleanup. rewrite Hh. reflexivity.
  - intros es w'' Hrun.
    assert (Hc : cancelled h w').
    { split; [rewrite Hint; apply lookup_delete_eq|].
      subst w'. unfold DriverDashboard.cleanup. rewrite Hh. proj. unfold_handlers. proj. eauto. }
    pose proof (run_cancelled _ _ _ _ Hc Hrun) as Hc'.
    split; [apply Hc' | by apply cancelled_no_tick].
  - intros k env i options c Hp. eexists.
    split; [eapply step_resolve; [exact Hp | reflexivity] |].
    rewrite commit_unmounted.
    + unfold_handlers. proj. rewrite location_eta. reflexivity.
    + unfold_handlers. proj. subst w'. proj.
      destruct (_ =? _)%nat; reflexivity.
Qed.

(** ** Where posted coordinates come from *)

Lemma commit_locationsFrom (P : Location → Prop) (w w1 : World) :
  locationsFrom P w1 → locationsFrom P (commit w w1).
Proof.
  intros (Hn & Hd & Hm & Hp). split; [|split; [|split]].
  - intros l. unfold commit. unfold_handlers.
    repeat (case_match; proj); intros Hin; split_mem; eauto.
  - intros d l. rewrite commit_dashboard. eauto.
  - intros m l. unfold commit. unfold_handlers.
    repeat (case_match; proj); intros Hmod Hl; eauto;
      repeat match goal with
        | H : modal w1 = _ |- _ => rewrite H in *
        end;
      cbn in Hmod; simplify_eq; dash_fields; try discriminate; eauto.
  - intros env p l Hin.
    apply commit_pending in Hin as [Hin|[(ps & o & [=])|[[=] _]]]. eauto.
Qed.

Lemma handle_locationsFrom (P : Location → Prop) (e : Event) (w w1 : World) :
  locationsFrom P w →
  (∀ k c, e = Resolve k (Position c) → P (locationOf c)) →
  handle e w = Some w1 → locationsFrom P w1.
Proof.
  intros (Hn & Hd & Hm & Hp) He H.
  destruct (dashboard w) as [d|] eqn:Hdw;
    [pose proof (fun l => Hd d l eq_refl) as Hd' | ]; clear Hd.
  all: destruct (modal w) as [m|] eqn:Hmw;
    [pose proof (fun l => Hm m l eq_refl) as Hm' | ]; clear Hm.
  all: handled H; simplify_eq.
  all: repeat match goal with
         | H : pending _ !! _ = Some _ |- _ => apply list_elem_of_lookup_2 in H
         | H : context [Resolve _ (Position ?c)] |- _ =>
             specialize (H _ _ eq_refl)
         end.
  all: unfold_handlers; proj; repeat (case_match; proj).
  all: split; [|split; [|split]]; proj.
  all: intros; split_mem; simplify_eq;
    rewrite ?Hdw, ?Hmw in *; cbn [fmap option_fmap option_map mbind option_bind] in *;
    simplify_eq; dash_fields; simplify_eq; rewrite ?location_eta; eauto.
Qed.

Lemma run_locationsFrom (P : Location → Prop) (es : list Event) (w w' : World) :
  locationsFrom P w →
  (∀ c, c ∈ probed es → P (locationOf c)) →
  run es w = Some w' → locationsFrom P w'.
Proof.
  revert w. induction es as [|e es IH]; intros w Hw Hes Hrun; cbn [run] in Hrun.
  - congruence.
  - apply bind_Some in Hrun as (w1 & Hstep & Hrun).
    apply step_handle in Hstep as (w2 & Hh & ->).
    eapply IH; [|  | exact Hrun].
    + apply commit_locationsFrom. eapply handle_locationsFrom; [exact Hw | | exact Hh].
      intros k c ->. apply Hes. left.
    + intros c Hc. apply Hes. unfold probed. cbn [omap list_omap].
      destruct e as [| | |? []| | | | | | | | |]; try right; exact Hc.
Qed.

(** What the effects add to the requests sent. *)
Lemma commit_network (w w1 : World) :
  ∃ rest, network (commit w w1) = (network w1 ++ rest)%list.
Proof.
  unfold commit. unfold_handlers.
  repeat (case_match; proj);
    first [ by eexists | exists []; by rewrite app_nil_r ].
Qed.

(** Every probe that succeeds posts the position it returned. *)
Lemma probe_success_pushes (w : World) (k : nat) (env : Closure) (cb : GeoCallback)
    (o : PositionOptions) (c : Coords) :
  pending w !! k = Some (Geo env cb o) →
  ∃ w' rest, step (Resolve k (Position c)) w = Some w'
    ∧ network w'
      = (network w
         ++ PostDriverLocation {| lat := latitude c; lng := longitude c |} :: rest)%list.
Proof.
  intros Hp.
  assert (∃ w1 rest1, resolve (Geo env cb o) (Position c) (over_pending (delete k) w)
                      = Some w1
            ∧ network w1
              = (network w
                 ++ PostDriverLocation {| lat := latitude c; lng := longitude c |}
                    :: rest1)%list) as (w1 & rest1 & Hr & Hn).
  { destruct cb; eexists _, []; (split; [reflexivity|]);
      unfold_handlers; repeat (case_match; proj); reflexivity. }
  destruct (commit_network w w1) as (rest2 & Hc).
  exists (commit w w1), (rest1 ++ rest2)%list.
  split; [by eapply step_resolve|].
  rewrite Hc, Hn, <- app_assoc. reflexivity.
Qed.

(** C9. Every probe that succeeds (the gate's silent or first-time probe,
    the periodic one, the modal's) posts to /driver/location a body made of
    the latitude and longitude it returned; and every body posted during a
    run, the manual action's included, holds exactly the latitude and the
    longitude of one position the device returned earlier in that run: the
    same two doubles, untransformed. *)
Theorem C9_pushes_carry_probe_coordinates
    (storage : gmap string string) (supported : bool) (t : N)
    (es : list Event) (w : World) :
  run es (pageLoad storage supported t) = Some w →
  (∀ l, PostDriverLocation l ∈ network w →
     ∃ c, c ∈ probed es ∧ lat l = latitude c ∧ lng l = longitude c)
  ∧ (∀ k env cb o c, pending w !! k = Some (Geo env cb o) →
       ∃ w' rest, step (Resolve k (Position c)) w = Some w'
         ∧ network w'
           = (network w
              ++ PostDriverLocation {| lat := latitude c; lng := longitude c |}
                 :: rest)%list).
Proof.
  intros Hrun. split; [|intros k env cb o c; apply probe_success_pushes].
  intros l Hin.
  pose (P := fun l => ∃ c, c ∈ probed es ∧ lat l = latitude c ∧ lng l = longitude c).
  assert (Hinv : locationsFrom P w).
  { eapply run_locationsFrom; [| |exact Hrun].
    - split; [|split; [|split]]; cbn.
      + intros l' H'. by apply elem_of_nil in H'.
      + intros d l' [=].
      + intros m l' [=].
      + intros env p l' H'. by apply elem_of_nil in H'.
    - intros c Hc. exists c. eauto. }
  destruct Hinv as (Hn & _). apply Hn. exact Hin.
Qed.

(** ** What is rendered, and when data is fetched *)










(** ** Logout *)











(** ** The concrete session *)

Lemma example_reachable (es : list Event) :
  is_Some (run es Example.page) → reachable (Example.world es).
Proof.
  intros [w Hw]. exists ∅, true, 1700000000000%N, es.
  unfold Example.world. fold Example.page. rewrite Hw. reflexivity.
Qed.

(** C3. The claim fails on the code. [startLiveLocationTracking] overwrites
    the global handle without cancelling the interval it held. In the
    session [Example.enabledTwice] the modal's "Continue to Dashboard"
    button and its automatic success callback both reach
    [handleLocationEnabled]: intervals 3 and 4 then run together in one
    mounted dashboard while the handle holds only 4. Unmounting cancels 4;
    interval 3 is left running, fires after the teardown and its probe
    posts a position. *)
Theorem C3_second_enable_leaves_orphan_interval :
  ∃ w w1 w2,
    run Example.enabledTwice Example.page = Some w
    ∧ Dash.render <$> dashboard w = Some (Dash.Content false)
    ∧ map_to_list (intervals w)
      = [(3%positive, {| owner := 1; uid := Js.IdNumber 7 |});
         (4%positive, {| owner := 1; uid := Js.IdNumber 7 |})]
    ∧ driverLocationInterval w = Some 4%positive
    ∧ step Unmount w = Some w1
    ∧ driverLocationInterval w1 = None
    ∧ map_to_list (intervals w1)
      = [(3%positive, {| owner := 1; uid := Js.IdNumber 7 |})]
    ∧ run [Tick 3%positive; Resolve 3 (Position Example.p3)] w1 = Some w2
    ∧ network w2 = (network w1 ++ [PostDriverLocation (locationOf Example.p3)])%list.
Proof.
  pose (w := Example.world Example.enabledTwice).
  pose (w1 := default w (step Unmount w)).
  exists w, w1, (default w1 (run [Tick 3%positive; Resolve 3 (Position Example.p3)] w1)).
  do 8 (split; [vm_compute; reflexivity|]). vm_compute. reflexivity.
Qed.

(** C4, the claim as stated fails: the dashboard is unmounted while interval
    1 is running and one of its probes is in flight; the probe answers after
    the teardown and its callback, which checks nothing, posts the position
    to /driver/location. *)
Lemma C4_late_probe_pushes_after_unmount :
  ∃ w w',
    run Example.ticking Example.page = Some w
    ∧ is_Some (dashboard w)
    ∧ driverLocationInterval w = Some 1%positive
    ∧ is_Some (intervals w !! 1%positive)
    ∧ run [Unmount; Resolve 0 (Position Example.p1)] w = Some w'
    ∧ dashboard w' = None
    ∧ network w' = (network w ++ [PostDriverLocation (locationOf Example.p1)])%list.
Proof.
  pose (w := Example.world Example.ticking).
  exists w, (default w (run [Unmount; Resolve 0 (Position Example.p1)] w)).
  split; [vm_compute; reflexivity|].
  split; [vm_compute; eauto|].
  split; [vm_compute; reflexivity|].
  split; [vm_compute; eauto|].
  do 2 (split; [vm_compute; reflexivity|]). vm_compute. reflexivity.
Qed.

(** C6, the claim as stated fails: after a failed first-time probe the
    permission key holds "denied" but no permission-time key is written. *)
Lemma C6_denied_without_time :
  ∃ w w',
    run Example.mounted Example.page = Some w
    ∧ pending w !! 0%nat
      = Some (Geo {| owner := 1; uid := Js.IdNumber 7 |} FullProbe
                DriverDashboard.fullOptions)
    ∧ step (Resolve 0 (Error PERMISSION_DENIED)) w = Some w'
    ∧ localStorage w' !! "driverLocationPermission_7" = Some "denied"
    ∧ localStorage w' !! "driverLocationPermissionTime_7" = None
    ∧ localStorage w' !! "driverLocationPermissionTime_7" ≠ Some (Js.toString (now w)).
Proof.
  pose (w := Example.world Example.mounted).
  exists w, (default w (step (Resolve 0 (Error PERMISSION_DENIED)) w)).
  do 5 (split; [vm_compute; reflexivity|]).
  vm_compute. discriminate.
Qed.


(** ** The theorems at the concrete session *)


(** C2 at the session [Example.ticking], whose periodic probe is refused. *)
Lemma C2_witness :
  reachable (Example.world Example.ticking)
  ∧ pending (Example.world Example.ticking) !! 0%nat
    = Some (Geo {| owner := 1; uid := Js.IdNumber 7 |} (TrackingProbe 1)
              DriverDashboard.trackingOptions)
  ∧ ∃ w', step (Resolve 0 (Error PERMISSION_DENIED)) (Example.world Example.ticking)
          = Some w'
      ∧ intervals w' !! 1%positive = None
      ∧ localStorage w' !! "driverLocationPermission_7" = None.
Proof.
  assert (Hr : reachable (Example.world Example.ticking))
    by (apply example_reachable; vm_compute; eauto).
  assert (Hp : pending (Example.world Example.ticking) !! 0%nat
               = Some (Geo {| owner := 1; uid := Js.IdNumber 7 |} (TrackingProbe 1)
                         DriverDashboard.trackingOptions))
    by (vm_compute; reflexivity).
  split; [exact Hr|]. split; [exact Hp|].
  destruct (C2_tracking_permission_denied _ _ _ _ _ Hr Hp)
    as (w' & Hs & Hi & _ & Hl & _).
  exists w'. split; [exact Hs|]. split; [exact Hi | exact Hl].
Defined.

(** C4 (as amended) at the session [Example.ticking]. *)
Lemma C4_witness :
  reachable (Example.world Example.ticking)
  ∧ is_Some (dashboard (Example.world Example.ticking))
  ∧ driverLocationInterval (Example.world Example.ticking) = Some 1%positive
  ∧ ∃ w', step Unmount (Example.world Example.ticking) = Some w'
      ∧ driverLocationInterval w' = None
      ∧ intervals w' = delete 1%positive (intervals (Example.world Example.ticking)).
Proof.
  assert (Hr : reachable (Example.world Example.ticking))
    by (apply example_reachable; vm_compute; eauto).
  assert (Hd : is_Some (dashboard (Example.world Example.ticking)))
    by (vm_compute; eauto).
  assert (Hh : driverLocationInterval (Example.world Example.ticking) = Some 1%positive)
    by (vm_compute; reflexivity).
  split; [exact Hr|]. split; [exact Hd|]. split; [exact Hh|].
  destruct (C4_unmount_cancels_registered_interval _ _ Hr Hd Hh)
    as (w' & Hs & Hn & Hi & _).
  exists w'. split; [exact Hs|]. split; [exact Hn | exact Hi].
Defined.


(** C6 (as amended) at the session [Example.mounted], whose first-time probe times out. *)
Lemma C6_witness :
  pending (Example.world Example.mounted) !! 0%nat
  = Some (Geo {| owner := 1; uid := Js.IdNumber 7 |} FullProbe
            DriverDashboard.fullOptions)
  ∧ ∃ w', step (Resolve 0 (Error TIMEOUT)) (Example.world Example.mounted) = Some w'
      ∧ localStorage w'
        = <[userLocationKey (Js.IdNumber 7) := "denied"]>
            (localStorage (Example.world Example.mounted)).
Proof.
  assert (Hp : pending (Example.world Example.mounted) !! 0%nat
               = Some (Geo {| owner := 1; uid := Js.IdNumber 7 |} FullProbe
                         DriverDashboard.fullOptions))
    by (vm_compute; reflexivity).
  split; [exact Hp|].
  destruct (C6_full_probe_failure_marks_denied _ _ _ _ TIMEOUT Hp)
    as (w' & Hs & Hl & _).
  exists w'. split; [exact Hs | exact Hl].
Defined.

(** C8 at the session [Example.ticking], whose periodic probe times out. *)
Lemma C8_witness :
  reachable (Example.world Example.ticking)
  ∧ pending (Example.world Example.ticking) !! 0%nat
    = Some (Geo {| owner := 1; uid := Js.IdNumber 7 |} (TrackingProbe 1)
              DriverDashboard.trackingOptions)
  ∧ TIMEOUT ≠ PERMISSION_DENIED
  ∧ ∃ w', step (Resolve 0 (Error TIMEOUT)) (Example.world Example.ticking) = Some w'
      ∧ intervals w' = intervals (Example.world Example.ticking)
      ∧ dashboard w' = dashboard (Example.world Example.ticking).
Proof.
  assert (Hr : reachable (Example.world Example.ticking))
    by (apply example_reachable; vm_compute; eauto).
  assert (Hp : pending (Example.world Example.ticking) !! 0%nat
               = Some (Geo {| owner := 1; uid := Js.IdNumber 7 |} (TrackingProbe 1)
                         DriverDashboard.trackingOptions))
    by (vm_compute; reflexivity).
  assert (Hne : TIMEOUT ≠ PERMISSION_DENIED) by discriminate.
  split; [exact Hr|]. split; [exact Hp|]. split; [exact Hne|].
  destruct (C8_tracking_failure_only_logged _ _ _ _ _ _ Hr Hp Hne)
    as (w' & Hs & _ & Hi & _ & Hd & _).
  exists w'. split; [exact Hs|]. split; [exact Hi | exact Hd].
Defined.

(** C9 at the session [Example.granted]: the first push carries [Example.p0]. *)
Lemma C9_witness :
  run Example.granted Example.page = Some (Example.world Example.granted)
  ∧ PostDriverLocation (locationOf Example.p0) ∈ network (Example.world Example.granted)
  ∧ ∃ c, c ∈ probed Example.granted
      ∧ lat (locationOf Example.p0) = latitude c
      ∧ lng (locationOf Example.p0) = longitude c.
Proof.
  assert (H : run Example.granted (pageLoad ∅ true 1700000000000)
              = Some (Example.world Example.granted)) by (vm_compute; reflexivity).
  assert (Hin : PostDriverLocation (locationOf Example.p0)
                ∈ network (Example.world Example.granted)).
  { apply (list_elem_of_lookup_2 _ 0%nat). vm_compute. reflexivity. }
  split; [exact H|]. split; [exact Hin|].
  destruct (C9_pushes_carry_probe_coordinates _ _ _ _ _ H) as [Hback _].
  exact (Hback _ Hin).
Defined.

